(* Nested transactions over a single-level SQL engine: app/sql/transaction
   and the nesting bookkeeping of app/sql/connection, as exercised by
   app/sql/transaction_unittest.cc. *)

From Stdlib Require Import List Arith Lia Bool.
Import ListNotations.

(* ------------------------------------------------------------------ *)
(** * The engine collaborator *)

Inductive stmt := SBegin | SCommit | SRollback.

(** Modelled from the spec: the database engine behind sql::Connection
    (connection.cc and sqlite are not part of the sources).  The engine has a
    single level of transaction; [committed] counts the rows of table foo that
    are durable, [pending] those written inside the open engine transaction.
    [log] records every transaction statement the core issues, in order.
    The three [*_fails] flags say whether the engine rejects the statement
    (the EngineStatementFailure of the spec's error taxonomy). *)
Record engine := mkEngine {
  in_txn : bool;
  committed : nat;
  pending : nat;
  log : list stmt;
  begin_fails : bool;
  commit_fails : bool;
  rollback_fails : bool
}.

Definition stmt_fails (s : stmt) (e : engine) : bool :=
  match s with
  | SBegin => begin_fails e
  | SCommit => commit_fails e
  | SRollback => rollback_fails e
  end.

Definition with_txn (e : engine) (t : bool) (c p : nat) : engine :=
  mkEngine t c p (log e) (begin_fails e) (commit_fails e) (rollback_fails e).

Definition logged (e : engine) (s : stmt) : engine :=
  mkEngine (in_txn e) (committed e) (pending e) (log e ++ [s])
    (begin_fails e) (commit_fails e) (rollback_fails e).

(** Modelled from the spec: [execute(sql_text) -> success|failure] for the
    three statement texts "BEGIN", "COMMIT" and "ROLLBACK".  A BEGIN inside an
    engine transaction, or a COMMIT/ROLLBACK outside one, fails. *)
Definition execute (s : stmt) (e0 : engine) : bool * engine :=
  let e := logged e0 s in
  if stmt_fails s e then (false, e) else
  match s with
  | SBegin =>
      if in_txn e then (false, e) else (true, with_txn e true (committed e) 0)
  | SCommit =>
      if in_txn e then (true, with_txn e false (committed e + pending e) 0)
      else (false, e)
  | SRollback =>
      if in_txn e then (true, with_txn e false (committed e) 0)
      else (false, e)
  end.

(** Modelled from the spec: [db().Execute("INSERT INTO foo ...")]. *)
Definition insert_row (e : engine) : engine :=
  if in_txn e then with_txn e true (committed e) (S (pending e))
  else with_txn e false (S (committed e)) (pending e).

(** [CountFoo()]: the rows the connection sees. *)
Definition count_foo (e : engine) : nat := committed e + pending e.

(* ------------------------------------------------------------------ *)
(** * TransactionNestingState, held by the connection *)

(** Modelled from the spec: sql::Connection's nesting counter
    ([transaction_nesting()]) and must-rollback flag. *)
Record connection := mkConn {
  nesting_depth : nat;
  must_rollback : bool;
  eng : engine
}.

Definition set_eng (c : connection) (e : engine) : connection :=
  mkConn (nesting_depth c) (must_rollback c) e.

(** [enter() -> depth] *)
Definition enter (c : connection) : connection * nat :=
  (mkConn (S (nesting_depth c)) (must_rollback c) (eng c), S (nesting_depth c)).

(** [leave() -> depth]: decrements, never below 0. *)
Definition leave (c : connection) : connection * nat :=
  (mkConn (nesting_depth c - 1) (must_rollback c) (eng c), nesting_depth c - 1).

Definition poison (c : connection) : connection :=
  mkConn (nesting_depth c) true (eng c).

Definition clear_poison (c : connection) : connection :=
  mkConn (nesting_depth c) false (eng c).

Definition is_poisoned (c : connection) : bool := must_rollback c.

Definition exec_on (s : stmt) (c : connection) : bool * connection :=
  let (ok, e) := execute s (eng c) in (ok, set_eng c e).

(* ------------------------------------------------------------------ *)
(** * ScopedTransaction (sql::Transaction) *)

(** Per-handle state machine: Unopened, Open, Closed; [is_open] is
    [hs = Open]. *)
Inductive hstate := Unopened | Open | Closed.

Definition is_open (h : hstate) : bool :=
  match h with Open => true | _ => false end.

(** Modelled from the spec: [Transaction::Begin()] (transaction.cc is not
    part of the sources).  [None] is the MisuseError of a Begin on a handle
    that is not fresh. *)
Definition Begin (h : hstate) (c : connection) : option (bool * hstate * connection) :=
  match h with
  | Unopened =>
      if is_poisoned c then Some (false, Closed, c) else
      let (c1, d) := enter c in
      if d =? 1 then
        let (ok, c2) := exec_on SBegin c1 in
        if ok then Some (true, Open, c2)
        else let (c3, _) := leave c2 in Some (false, Closed, c3)
      else Some (true, Open, c1)
  | _ => None
  end.

(** Modelled from the spec: [Transaction::Commit()]. *)
Definition Commit (h : hstate) (c : connection) : option (bool * hstate * connection) :=
  match h with
  | Open =>
      let (c1, d) := leave c in
      if d =? 0 then
        if is_poisoned c1 then
          let (_, c2) := exec_on SRollback c1 in Some (false, Closed, clear_poison c2)
        else
          let (ok, c2) := exec_on SCommit c1 in Some (ok, Closed, c2)
      else Some (true, Closed, c1)
  | _ => None
  end.

(** Modelled from the spec: [Transaction::Rollback()]. *)
Definition Rollback (h : hstate) (c : connection) : option (hstate * connection) :=
  match h with
  | Open =>
      let (c1, d) := leave (poison c) in
      if d =? 0 then
        let (_, c2) := exec_on SRollback c1 in Some (Closed, clear_poison c2)
      else Some (Closed, c1)
  | _ => None
  end.

(** Modelled from the spec: [Transaction::~Transaction()], a Rollback when
    the handle is still open and nothing otherwise. *)
Definition destroy (h : hstate) (c : connection) : hstate * connection :=
  if is_open h then
    match Rollback h c with Some r => r | None => (h, c) end
  else (h, c).

(* ------------------------------------------------------------------ *)
(** * Sequences of calls on one connection *)

(** A test body: the connection and the handles [sql::Transaction t(&db())]
    created on it, numbered by the caller. *)
Record world := mkWorld {
  conn : connection;
  handles : nat -> hstate
}.

Definition upd (hs : nat -> hstate) (n : nat) (h : hstate) : nat -> hstate :=
  fun m => if m =? n then h else hs m.

Inductive op :=
  | OBegin (n : nat)
  | OCommit (n : nat)
  | ORollback (n : nat)
  | ODestroy (n : nat)
  | OInsert.

Definition step (o : op) (w : world) : option world :=
  match o with
  | OBegin n =>
      match Begin (handles w n) (conn w) with
      | Some (_, h, c) => Some (mkWorld c (upd (handles w) n h))
      | None => None
      end
  | OCommit n =>
      match Commit (handles w n) (conn w) with
      | Some (_, h, c) => Some (mkWorld c (upd (handles w) n h))
      | None => None
      end
  | ORollback n =>
      match Rollback (handles w n) (conn w) with
      | Some (h, c) => Some (mkWorld c (upd (handles w) n h))
      | None => None
      end
  | ODestroy n =>
      let (h, c) := destroy (handles w n) (conn w) in
      Some (mkWorld c (upd (handles w) n h))
  | OInsert => Some (mkWorld (set_eng (conn w) (insert_row (eng (conn w)))) (handles w))
  end.

Fixpoint run (os : list op) (w : world) : option world :=
  match os with
  | [] => Some w
  | o :: os' => match step o w with Some w' => run os' w' | None => None end
  end.

(** A connection with no transaction open, over engine [e]. *)
Definition init (e : engine) : world :=
  mkWorld (mkConn 0 false e) (fun _ => Unopened).

(** A freshly created, working database: CREATE TABLE foo (a, b). *)
Definition fresh_engine : engine := mkEngine false 0 0 [] false false false.

(** SQLTransactionTest.NestedRollback, handles outer = 0, inner1 = 1,
    inner2 = 2, inner3 = 3. *)
Definition nested_rollback_ops : list op :=
  [ OBegin 0;
    OBegin 1; OInsert; OCommit 1; ODestroy 1;
    OBegin 2; OInsert; ORollback 2; ODestroy 2;
    OBegin 3; ODestroy 3;
    ODestroy 0 ].

Definition run_prefix (k : nat) (e : engine) : option world :=
  run (firstn k nested_rollback_ops) (init e).

Definition depth_after (k : nat) (e : engine) : option nat :=
  option_map (fun w => nesting_depth (conn w)) (run_prefix k e).

Definition count_after (k : nat) (e : engine) : option nat :=
  option_map (fun w => count_foo (eng (conn w))) (run_prefix k e).

(** The engine accepts a COMMIT: it is inside its transaction and does not
    reject the statement. *)
Definition commit_accepted (e : engine) : bool := in_txn e && negb (commit_fails e).

(** An engine that executes every statement it is given: no transaction
    open, no statement rejected. *)
Definition healthy (e : engine) : bool :=
  negb (in_txn e) && negb (begin_fails e) && negb (commit_fails e) &&
  negb (rollback_fails e).

(** The same scenario with the outer transaction closed by an explicit
    Commit instead of its destructor. *)
Definition nested_rollback_commit_ops : list op :=
  firstn 11 nested_rollback_ops ++ [OCommit 0; ODestroy 0].

Definition world_or_init (o : option world) : world :=
  match o with Some w => w | None => init fresh_engine end.

(** The must-rollback flag is down whenever no transaction is open. *)
Definition poison_inv (w : world) : Prop :=
  nesting_depth (conn w) = 0 -> must_rollback (conn w) = false.

(** The bodies of SQLTransactionTest.Commit and SQLTransactionTest.Rollback,
    with [m] INSERT statements where the tests run one. *)
Definition inserts (m : nat) : list op := repeat OInsert m.
Arguments inserts : simpl never.

Definition commit_test_ops (m : nat) : list op :=
  [OBegin 0] ++ inserts m ++ [OCommit 0; ODestroy 0].

Definition implicit_rollback_ops (m : nat) : list op :=
  [OBegin 0] ++ inserts m ++ [ODestroy 0].

Definition rollback_test_ops (m1 m2 : nat) : list op :=
  implicit_rollback_ops m1 ++ [OBegin 1] ++ inserts m2 ++ [ORollback 1; ODestroy 1].

(** An engine that rejects none of the three transaction statements. *)
Definition reliable (e : engine) : bool :=
  negb (begin_fails e) && negb (commit_fails e) && negb (rollback_fails e).

(** The number of open handles among handles [0 .. N-1]. *)
Fixpoint open_count (hs : nat -> hstate) (N : nat) : nat :=
  match N with
  | 0 => 0
  | S n => open_count hs n + (if is_open (hs n) then 1 else 0)
  end.

(** The call names a handle below [N]. *)
Definition op_bound (N : nat) (o : op) : bool :=
  match o with
  | OBegin n | OCommit n | ORollback n | ODestroy n => n <? N
  | OInsert => true
  end.

(** Reads a statement log as engine transactions: a BEGIN only when none
    is open, a COMMIT or ROLLBACK only when one is; the result says whether
    one is open at the end. *)
Fixpoint log_open (l : list stmt) (o : bool) : option bool :=
  match l with
  | [] => Some o
  | SBegin :: l' => if o then None else log_open l' true
  | _ :: l' => if o then log_open l' false else None
  end.

(** The open-handle count over handles [0 .. N-1] is the nesting depth. *)
Definition depth_inv (N : nat) (w : world) : Prop :=
  open_count (handles w) N = nesting_depth (conn w).

(** The engine has a transaction open exactly when the depth is positive,
    and its log reads as alternating BEGIN and COMMIT/ROLLBACK. *)
Definition eng_inv (w : world) : Prop :=
  in_txn (eng (conn w)) = (0 <? nesting_depth (conn w)) /\
  log_open (log (eng (conn w))) false = Some (0 <? nesting_depth (conn w)).

Example depths_fresh :
  map (fun k => depth_after k fresh_engine) (seq 0 13) =
  map Some [0; 1; 2; 2; 1; 1; 2; 2; 1; 1; 1; 1; 0].
Proof. reflexivity. Qed.

Example counts_fresh :
  map (fun k => count_after k fresh_engine) (seq 0 13) =
  map Some [0; 0; 0; 1; 1; 1; 1; 2; 2; 2; 2; 2; 0].
Proof. reflexivity. Qed.

(* ------------------------------------------------------------------ *)
(** * Proof support *)

Ltac unfold_core :=
  unfold step, destroy, Begin, Commit, Rollback, enter, leave, poison,
    clear_poison, is_poisoned, exec_on, execute, set_eng, logged, with_txn,
    insert_row, stmt_fails, is_open, upd in *.

(** Split every boolean, nat comparison and option produced by the
    unfolded calls. *)
Ltac split_core :=
  repeat match goal with
  | H : Some _ = Some _ |- _ => inversion H; subst; clear H
  | H : None = Some _ |- _ => discriminate H
  | H : Some _ = None |- _ => discriminate H
  | H : (_, _) = (_, _) |- _ => inversion H; subst; clear H
  | H : context [match ?b with true => _ | false => _ end] |- _ => destruct b eqn:?
  | |- context [match ?b with true => _ | false => _ end] => destruct b eqn:?
  | H : context [match ?h with Unopened => _ | Open => _ | Closed => _ end] |- _ =>
      destruct h eqn:?
  | H : (_ =? _) = true |- _ => apply Nat.eqb_eq in H
  | H : (_ =? _) = false |- _ => apply Nat.eqb_neq in H
  | H : (_ <=? _) = true |- _ => apply Nat.leb_le in H
  | H : (_ <=? _) = false |- _ => apply Nat.leb_gt in H
  end; simpl in *.

Lemma tl_sub1 (d : nat) : d - 1 = Nat.pred d.
Proof. lia. Qed.

Lemma eqb_0_pred (d : nat) : (Nat.pred d =? 0) = (d <=? 1).
Proof. destruct d as [|[|d]]; reflexivity. Qed.

(* ------------------------------------------------------------------ *)
(** * Single calls *)

(** C3: when the must-rollback flag is set, Begin on a fresh handle fails and
    returns the connection unchanged: the depth is not entered, the flag is
    kept and no engine statement is issued. *)
Theorem begin_poisoned_no_effect (c : connection) :
  must_rollback c = true ->
  Begin Unopened c = Some (false, Closed, c).
Proof.
  intros Hp. unfold Begin, is_poisoned. rewrite Hp. reflexivity.
Qed.

Lemma begin_poisoned_no_effect_witness :
  must_rollback (mkConn 1 true fresh_engine) = true /\
  Begin Unopened (mkConn 1 true fresh_engine) = Some (false, Closed, mkConn 1 true fresh_engine).
Proof.
  split; [reflexivity|].
  apply (begin_poisoned_no_effect (mkConn 1 true fresh_engine)). reflexivity.
Defined.

(** C5: a successful Begin issues the engine BEGIN exactly when it takes the
    depth from 0 to 1, and issues nothing when the new depth exceeds 1; a
    Commit or Rollback that leaves the depth above 0 issues nothing. *)
Theorem engine_statements_only_at_outer_level (c : connection) :
  (forall h c', Begin Unopened c = Some (true, h, c') ->
     nesting_depth c' = S (nesting_depth c) /\
     ((nesting_depth c = 0 /\ nesting_depth c' = 1 /\
       log (eng c') = log (eng c) ++ [SBegin]) \/
      (nesting_depth c' > 1 /\ eng c' = eng c))) /\
  (forall r h c', Commit Open c = Some (r, h, c') ->
     nesting_depth c' > 0 -> eng c' = eng c) /\
  (forall h c', Rollback Open c = Some (h, c') ->
     nesting_depth c' > 0 -> eng c' = eng c).
Proof.
  destruct c as [d m e]. destruct e as [t k p l bf cf rf].
  repeat split; intros; unfold_core; simpl in *; rewrite ?tl_sub1, ?eqb_0_pred in *;
    split_core; try lia; auto;
    first [ left; repeat split; (lia || reflexivity)
          | right; split; [lia | reflexivity] ].
Qed.

Lemma engine_statements_only_at_outer_level_witness :
  Begin Unopened (mkConn 1 false fresh_engine) =
    Some (true, Open, mkConn 2 false fresh_engine) /\
  eng (mkConn 2 false fresh_engine) = eng (mkConn 1 false fresh_engine).
Proof.
  split; [reflexivity|].
  destruct (engine_statements_only_at_outer_level (mkConn 1 false fresh_engine))
    as [HB _].
  destruct (HB Open (mkConn 2 false fresh_engine) eq_refl) as [_ [[H0 _]|[_ H]]].
  - discriminate H0.
  - exact H.
Defined.

(** C6, as stated: a Commit closing an unpoisoned outer transaction makes its
    writes durable.  It fails when the engine rejects the COMMIT. *)
Lemma outer_commit_persists_counterexample :
  ~ (forall c r h c',
       Commit Open c = Some (r, h, c') -> nesting_depth c' = 0 ->
       must_rollback c = false ->
       log (eng c') = log (eng c) ++ [SCommit] /\
       committed (eng c') = committed (eng c) + pending (eng c)).
Proof.
  intros H.
  destruct (H (mkConn 1 false (mkEngine true 0 1 [SBegin] false true false))
              false Closed
              (mkConn 0 false (mkEngine true 0 1 [SBegin; SCommit] false true false))
              eq_refl eq_refl eq_refl) as [_ Hc].
  discriminate Hc.
Qed.

(** C6, amended: when Commit brings the depth to 0, a poisoned connection
    gets a ROLLBACK and the flag is cleared; an unpoisoned one gets a COMMIT,
    and when the engine accepts that COMMIT the writes become durable, while
    when it rejects it Commit returns failure and no row becomes durable. *)
Theorem outer_commit_statement (c : connection) (r : bool) (h : hstate)
    (c' : connection) :
  Commit Open c = Some (r, h, c') -> nesting_depth c' = 0 ->
  (must_rollback c = true ->
     log (eng c') = log (eng c) ++ [SRollback] /\ must_rollback c' = false /\
     r = false) /\
  (must_rollback c = false ->
     log (eng c') = log (eng c) ++ [SCommit] /\
     (commit_accepted (eng c) = true ->
        r = true /\ committed (eng c') = committed (eng c) + pending (eng c) /\
        pending (eng c') = 0 /\ in_txn (eng c') = false) /\
     (commit_accepted (eng c) = false ->
        r = false /\ committed (eng c') = committed (eng c))).
Proof.
  destruct c as [d m e]. destruct e as [t k p l bf cf rf].
  unfold commit_accepted. intros HC Hd. unfold_core. simpl in *.
  rewrite ?tl_sub1, ?eqb_0_pred in *.
  split_core; repeat split; auto; try discriminate; try lia.
Qed.

Lemma outer_commit_statement_witness :
  let c := mkConn 1 false (mkEngine true 0 1 [SBegin] false false false) in
  let c' := mkConn 0 false (mkEngine false 1 0 [SBegin; SCommit] false false false) in
  Commit Open c = Some (true, Closed, c') /\ committed (eng c') = 1.
Proof.
  intros c c'. split; [reflexivity|].
  destruct (outer_commit_statement c true Closed c' eq_refl eq_refl) as [_ H].
  destruct (H eq_refl) as [_ [H2 _]]. destruct (H2 eq_refl) as [_ [H3 _]].
  exact H3.
Defined.

(** C7: destroying an open handle is the explicit Rollback: per call, and as
    a step of a call sequence. *)
Theorem destroy_open_is_rollback :
  (forall c, Rollback Open c = Some (destroy Open c)) /\
  (forall w n, handles w n = Open -> step (ODestroy n) w = step (ORollback n) w).
Proof.
  split.
  - intros c. unfold destroy. cbn [is_open].
    destruct (Rollback Open c) eqn:E; [reflexivity|].
    unfold Rollback in E. destruct (leave (poison c)) as [c1 d].
    destruct (d =? 0); [destruct (exec_on SRollback c1)|]; discriminate.
  - intros w n Hn. unfold step. rewrite Hn.
    unfold destroy. cbn [is_open]. destruct (Rollback Open (conn w)) as [[h c]|] eqn:E.
    + reflexivity.
    + unfold Rollback in E. destruct (leave (poison (conn w))) as [c1 d].
      destruct (d =? 0); [destruct (exec_on SRollback c1)|]; discriminate.
Qed.

Lemma destroy_open_is_rollback_witness :
  step (ODestroy 0) (mkWorld (mkConn 1 false fresh_engine) (fun _ => Open)) =
  step (ORollback 0) (mkWorld (mkConn 1 false fresh_engine) (fun _ => Open)).
Proof.
  destruct destroy_open_is_rollback as [_ H]. apply H. reflexivity.
Defined.

(** C9: when the outermost Begin's engine BEGIN fails, Begin fails and the
    depth and the flag are those from before the call. *)
Theorem begin_engine_failure_no_phantom (c : connection) :
  must_rollback c = false -> nesting_depth c = 0 ->
  fst (execute SBegin (eng c)) = false ->
  exists c', Begin Unopened c = Some (false, Closed, c') /\
             nesting_depth c' = nesting_depth c /\
             must_rollback c' = must_rollback c.
Proof.
  destruct c as [d m e]. simpl. intros Hm Hd Hx. subst.
  unfold Begin, is_poisoned, enter, exec_on. simpl.
  destruct (execute SBegin e) as [ok e'] eqn:E. simpl in Hx. subst.
  eexists. split; [reflexivity|]. simpl. auto.
Qed.

Lemma begin_engine_failure_no_phantom_witness :
  exists c', Begin Unopened (mkConn 0 false (mkEngine false 0 0 [] true false false)) =
               Some (false, Closed, c') /\ nesting_depth c' = 0.
Proof.
  destruct (begin_engine_failure_no_phantom
              (mkConn 0 false (mkEngine false 0 0 [] true false false))
              eq_refl eq_refl eq_refl) as [c' [H1 [H2 _]]].
  exists c'. split; [exact H1 | exact H2].
Defined.

(** C10: destroying a handle that is not open leaves the connection as it
    is; after a Commit, a Rollback or a failed Begin the handle is not open. *)
Theorem destroy_closed_no_effect :
  (forall h c, is_open h = false -> destroy h c = (h, c)) /\
  (forall c r h c', Commit Open c = Some (r, h, c') -> destroy h c' = (h, c')) /\
  (forall c h c', Rollback Open c = Some (h, c') -> destroy h c' = (h, c')) /\
  (forall c h c', Begin Unopened c = Some (false, h, c') -> destroy h c' = (h, c')) /\
  (forall w n, is_open (handles w n) = false ->
     exists w', step (ODestroy n) w = Some w' /\ conn w' = conn w).
Proof.
  assert (Hd : forall h c, is_open h = false -> destroy h c = (h, c)).
  { intros h c H. unfold destroy. rewrite H. reflexivity. }
  repeat split.
  - exact Hd.
  - intros [d m e] r h c' HC. apply Hd. destruct e.
    unfold_core; simpl in *; split_core; reflexivity.
  - intros [d m e] h c' HC. apply Hd. destruct e.
    unfold_core; simpl in *; split_core; reflexivity.
  - intros [d m e] h c' HC. apply Hd. destruct e.
    unfold_core; simpl in *; split_core; reflexivity.
  - intros w n Hn. unfold step. rewrite (Hd _ _ Hn).
    eexists. split; reflexivity.
Qed.

Lemma destroy_closed_no_effect_witness :
  destroy Closed (mkConn 1 true fresh_engine) = (Closed, mkConn 1 true fresh_engine).
Proof.
  destruct destroy_closed_no_effect as [H _]. apply H. reflexivity.
Defined.

(* ------------------------------------------------------------------ *)
(** * The NestedRollback scenario *)

(** C4: along NestedRollback the depth goes 0, 1 (outer), 2 (inner1),
    1 (inner1 committed), 2 (inner2), 1 (inner2 rolled back), the Begin of
    inner3 fails leaving 1, and closing the outer returns 0. *)
Theorem nested_rollback_depths (e : engine) :
  in_txn e = false -> begin_fails e = false ->
  map (fun k => depth_after k e) (seq 0 13) =
    map Some [0; 1; 2; 2; 1; 1; 2; 2; 1; 1; 1; 1; 0] /\
  exists w c, run_prefix 9 e = Some w /\
    Begin (handles w 3) (conn w) = Some (false, Closed, c) /\
    nesting_depth (conn w) = 1 /\ nesting_depth c = 1.
Proof.
  destruct e as [t k p l bf cf rf]. simpl. intros -> ->.
  destruct cf, rf; (split; [vm_compute; reflexivity | do 2 eexists;
    split; [vm_compute; reflexivity|]; split; [vm_compute; reflexivity | split; reflexivity]]).
Qed.

Lemma nested_rollback_depths_witness :
  map (fun k => depth_after k fresh_engine) (seq 0 13) =
    map Some [0; 1; 2; 2; 1; 1; 2; 2; 1; 1; 1; 1; 0].
Proof.
  destruct (nested_rollback_depths fresh_engine eq_refl eq_refl) as [H _].
  exact H.
Defined.

(** C1, as stated: at the end of NestedRollback on a fresh table the row of
    the committed inner1 is still there (count 1).  The test expects 0. *)
Lemma nested_rollback_row_counterexample :
  count_after 12 fresh_engine <> Some 1.
Proof. vm_compute. discriminate. Qed.

(** C1, amended: the row of the committed inner1 is visible (one more row)
    while the outer transaction is open, but closing the poisoned outer
    transaction, by its destructor or by Commit, rolls it back with the rest:
    the final count is the count before the scenario. *)
Theorem nested_rollback_row_rolled_back (e : engine) :
  healthy e = true -> pending e = 0 ->
  count_after 5 e = Some (count_foo e + 1) /\
  count_after 12 e = Some (count_foo e) /\
  option_map (fun w => count_foo (eng (conn w)))
    (run nested_rollback_commit_ops (init e)) = Some (count_foo e).
Proof.
  destruct e as [t k p l bf cf rf]. unfold healthy. simpl.
  intros H ->. destruct t, bf, cf, rf; try discriminate H.
  unfold count_foo, count_after, run_prefix. vm_compute. rewrite !Nat.add_0_r. auto.
Qed.

Lemma nested_rollback_row_rolled_back_witness :
  count_after 5 fresh_engine = Some 1 /\ count_after 12 fresh_engine = Some 0.
Proof.
  destruct (nested_rollback_row_rolled_back fresh_engine eq_refl eq_refl)
    as [H1 [H2 _]].
  split; [exact H1 | exact H2].
Defined.

(* ------------------------------------------------------------------ *)
(** * Call sequences *)

Ltac case_step :=
  unfold_core; simpl in *; rewrite ?tl_sub1, ?eqb_0_pred in *; split_core.

Lemma step_log_grows (o : op) (w w' : world) :
  step o w = Some w' ->
  exists t, log (eng (conn w')) = log (eng (conn w)) ++ t.
Proof.
  destruct w as [[d m e] hs]. destruct e. destruct o; intros Hs; case_step;
    simpl; eauto using app_nil_r.
Qed.

Lemma run_log_grows (os : list op) (w w' : world) :
  run os w = Some w' ->
  exists t, log (eng (conn w')) = log (eng (conn w)) ++ t.
Proof.
  revert w. induction os as [|o os IH]; intros w Hr; simpl in Hr.
  - inversion Hr; subst. exists []. rewrite app_nil_r. reflexivity.
  - destruct (step o w) as [w1|] eqn:Hs; [|discriminate].
    destruct (step_log_grows o w w1 Hs) as [t1 H1].
    destruct (IH w1 Hr) as [t2 H2].
    exists (t1 ++ t2). rewrite H2, H1. symmetry. apply app_assoc.
Qed.

(** One call on a poisoned connection with an open outer transaction:
    either nothing reaches the engine and the outer transaction stays open and
    poisoned, or the call closes it with a ROLLBACK. *)
Lemma step_poisoned (o : op) (w w' : world) :
  must_rollback (conn w) = true -> nesting_depth (conn w) >= 1 ->
  step o w = Some w' ->
  (log (eng (conn w')) = log (eng (conn w)) /\ must_rollback (conn w') = true /\
   nesting_depth (conn w') >= 1) \/
  log (eng (conn w')) = log (eng (conn w)) ++ [SRollback].
Proof.
  destruct w as [[d m e] hs]. destruct e. simpl. intros -> Hd.
  destruct o; intros Hs; case_step;
    first [ right; reflexivity | left; repeat split; (reflexivity || lia) ].
Qed.

Lemma run_poisoned (os : list op) (w w' : world) :
  must_rollback (conn w) = true -> nesting_depth (conn w) >= 1 ->
  run os w = Some w' ->
  exists t, log (eng (conn w')) = log (eng (conn w)) ++ t /\
    ((t = [] /\ nesting_depth (conn w') >= 1) \/ exists rest, t = SRollback :: rest).
Proof.
  revert w. induction os as [|o os IH]; intros w Hm Hd Hr; simpl in Hr.
  - inversion Hr; subst. exists []. rewrite app_nil_r. split; [reflexivity | left; auto].
  - destruct (step o w) as [w1|] eqn:Hs; [|discriminate].
    destruct (step_poisoned o w w1 Hm Hd Hs) as [[Hl [Hm1 Hd1]] | Hl].
    + destruct (IH w1 Hm1 Hd1 Hr) as [t [Ht Hor]].
      exists t. rewrite Ht, Hl. auto.
    + destruct (run_log_grows os w1 w' Hr) as [t Ht].
      exists (SRollback :: t). rewrite Ht, Hl, <- app_assoc. split; [reflexivity|].
      right. eauto.
Qed.

(** A Rollback while the outer transaction is open either issues the outer
    ROLLBACK at once or leaves the outer transaction open and poisoned. *)
Lemma step_rollback_open (n : nat) (w w' : world) :
  nesting_depth (conn w) >= 1 -> step (ORollback n) w = Some w' ->
  (log (eng (conn w')) = log (eng (conn w)) /\ must_rollback (conn w') = true /\
   nesting_depth (conn w') >= 1) \/
  log (eng (conn w')) = log (eng (conn w)) ++ [SRollback].
Proof.
  destruct w as [[d m e] hs]. destruct e. simpl. intros Hd Hs. case_step;
    first [ right; reflexivity | left; repeat split; (reflexivity || lia) ].
Qed.

(** C2: after a Rollback, at any depth, made while the outer transaction is
    open, the next transaction statement the engine receives is ROLLBACK:
    the outer transaction is either still open, with nothing issued since, or
    it was closed by a ROLLBACK, never by a COMMIT. *)
Theorem nested_rollback_forces_outer_rollback (e : engine) (os1 os2 : list op)
    (n : nat) (w1 w2 w' : world) :
  run os1 (init e) = Some w1 -> nesting_depth (conn w1) >= 1 ->
  step (ORollback n) w1 = Some w2 -> run os2 w2 = Some w' ->
  exists t, log (eng (conn w')) = log (eng (conn w1)) ++ t /\
    ((t = [] /\ nesting_depth (conn w') >= 1) \/ exists rest, t = SRollback :: rest).
Proof.
  intros _ Hd Hs Hr.
  destruct (step_rollback_open n w1 w2 Hd Hs) as [[Hl [Hm2 Hd2]] | Hl].
  - destruct (run_poisoned os2 w2 w' Hm2 Hd2 Hr) as [t [Ht Hor]].
    exists t. rewrite Ht, Hl. auto.
  - destruct (run_log_grows os2 w2 w' Hr) as [t Ht].
    exists (SRollback :: t). rewrite Ht, Hl, <- app_assoc. split; [reflexivity|].
    right. eauto.
Qed.

Lemma nested_rollback_forces_outer_rollback_witness :
  exists t,
    log (eng (conn (world_or_init (run_prefix 12 fresh_engine)))) =
    log (eng (conn (world_or_init (run_prefix 7 fresh_engine)))) ++ t /\
    exists rest, t = SRollback :: rest.
Proof.
  destruct (nested_rollback_forces_outer_rollback fresh_engine
              (firstn 7 nested_rollback_ops) (skipn 8 nested_rollback_ops) 2
              (world_or_init (run_prefix 7 fresh_engine))
              (world_or_init (run_prefix 8 fresh_engine))
              (world_or_init (run_prefix 12 fresh_engine))
              ltac:(vm_compute; reflexivity) ltac:(vm_compute; lia)
              ltac:(vm_compute; reflexivity) ltac:(vm_compute; reflexivity))
    as [t [Ht Hor]].
  exists t. split; [exact Ht|].
  destruct Hor as [[Ht0 Hd] | H]; [|exact H].
  exfalso. revert Hd. vm_compute. lia.
Defined.

Lemma step_poison_inv (o : op) (w w' : world) :
  poison_inv w -> step o w = Some w' -> poison_inv w'.
Proof.
  unfold poison_inv. destruct w as [[d m e] hs]. destruct e. simpl.
  intros Hi. destruct o; intros Hs; case_step; intros; auto; try lia.
Qed.

Lemma run_poison_inv (os : list op) (w w' : world) :
  poison_inv w -> run os w = Some w' -> poison_inv w'.
Proof.
  revert w. induction os as [|o os IH]; intros w Hi Hr; simpl in Hr.
  - inversion Hr; subst. exact Hi.
  - destruct (step o w) as [w1|] eqn:Hs; [|discriminate].
    exact (IH w1 (step_poison_inv o w w1 Hi Hs) Hr).
Qed.

Lemma step_keeps_poison (o : op) (w w' : world) :
  must_rollback (conn w) = true -> step o w = Some w' ->
  nesting_depth (conn w') > 0 -> must_rollback (conn w') = true.
Proof.
  destruct w as [[d m e] hs]. destruct e. simpl. intros ->.
  destruct o; intros Hs; case_step; intros; auto; try lia.
Qed.

(** C8: in every state reached from a connection with no transaction open,
    the must-rollback flag is down at depth 0; the next call keeps a raised
    flag raised while the depth stays above 0, and the flag is down again
    once the depth is back to 0. *)
Theorem poison_cleared_at_depth_zero (e : engine) (os : list op) (w : world) :
  run os (init e) = Some w ->
  (nesting_depth (conn w) = 0 -> must_rollback (conn w) = false) /\
  (forall o w', step o w = Some w' ->
     (must_rollback (conn w) = true -> nesting_depth (conn w') > 0 ->
        must_rollback (conn w') = true) /\
     (nesting_depth (conn w') = 0 -> must_rollback (conn w') = false)).
Proof.
  intros Hr.
  assert (Hi : poison_inv w).
  { apply (run_poison_inv os (init e) w); [intros _; reflexivity | exact Hr]. }
  split; [exact Hi|].
  intros o w' Hs. split.
  - intros Hm. exact (step_keeps_poison o w w' Hm Hs).
  - exact (step_poison_inv o w w' Hi Hs).
Qed.

Lemma poison_cleared_at_depth_zero_witness :
  must_rollback (conn (world_or_init (run_prefix 12 fresh_engine))) = false.
Proof.
  destruct (poison_cleared_at_depth_zero fresh_engine nested_rollback_ops
              (world_or_init (run_prefix 12 fresh_engine))
              ltac:(vm_compute; reflexivity)) as [H _].
  apply H. vm_compute. reflexivity.
Defined.

(* ------------------------------------------------------------------ *)
(** * SQLTransactionTest.Commit and SQLTransactionTest.Rollback *)

Lemma run_app (os1 os2 : list op) (w : world) :
  run (os1 ++ os2) w = match run os1 w with Some w' => run os2 w' | None => None end.
Proof.
  revert w. induction os1 as [|o os1 IH]; intros w; simpl; [reflexivity|].
  destruct (step o w); [apply IH | reflexivity].
Qed.

(** INSERTs inside an engine transaction add pending rows only. *)
Lemma run_inserts (m : nat) (w : world) :
  in_txn (eng (conn w)) = true ->
  run (inserts m) w =
    Some (mkWorld (set_eng (conn w) (with_txn (eng (conn w)) true
            (committed (eng (conn w))) (pending (eng (conn w)) + m))) (handles w)).
Proof.
  revert w. induction m as [|m IH]; intros [[d mr e] hs] Ht;
    destruct e as [t k p l bf cf rf]; simpl in *; subst.
  - rewrite Nat.add_0_r. reflexivity.
  - rewrite IH by reflexivity. unfold set_eng, insert_row, with_txn. simpl.
    rewrite Nat.add_succ_r. reflexivity.
Qed.

Ltac run_scenario :=
  repeat progress (rewrite ?run_app; simpl; rewrite ?run_inserts by reflexivity; simpl).

(** SQLTransactionTest.Commit: on a healthy connection with no transaction
    open, Begin opens the handle, and after [m] INSERTs and Commit the
    handle is closed, the depth is 0, no engine transaction is left open,
    the engine received exactly BEGIN then COMMIT, and the [m] rows are
    durable. *)
Theorem commit_test_persists (e : engine) (m : nat) :
  healthy e = true -> pending e = 0 ->
  (exists w1, run [OBegin 0] (init e) = Some w1 /\ handles w1 0 = Open /\
              nesting_depth (conn w1) = 1) /\
  exists w, run (commit_test_ops m) (init e) = Some w /\
    handles w 0 = Closed /\ nesting_depth (conn w) = 0 /\
    in_txn (eng (conn w)) = false /\
    log (eng (conn w)) = log e ++ [SBegin; SCommit] /\
    committed (eng (conn w)) = committed e + m /\
    count_foo (eng (conn w)) = count_foo e + m.
Proof.
  destruct e as [t k p l bf cf rf]. unfold healthy. intros H Hp.
  simpl in H, Hp. subst p. destruct t, bf, cf, rf; try discriminate H.
  split; [eexists; split; [reflexivity | split; reflexivity]|].
  unfold commit_test_ops. run_scenario.
  eexists. repeat split; unfold count_foo; simpl;
    first [ lia | rewrite <- !app_assoc; reflexivity ].
Qed.

Lemma commit_test_persists_witness :
  exists w, run (commit_test_ops 1) (init fresh_engine) = Some w /\
    count_foo (eng (conn w)) = 1.
Proof.
  destruct (commit_test_persists fresh_engine 1 eq_refl eq_refl)
    as [_ [w [Hr [_ [_ [_ [_ [_ Hc]]]]]]]].
  exists w. split; [exact Hr | exact Hc].
Defined.

(** SQLTransactionTest.Rollback, first part: leaving the scope of an open
    handle after [m] INSERTs rolls them back: the engine received BEGIN then
    ROLLBACK, the depth is 0 and the row count is what it was. *)
Theorem implicit_rollback_discards (e : engine) (m : nat) :
  healthy e = true -> pending e = 0 ->
  exists w, run (implicit_rollback_ops m) (init e) = Some w /\
    handles w 0 = Closed /\ nesting_depth (conn w) = 0 /\
    must_rollback (conn w) = false /\ in_txn (eng (conn w)) = false /\
    log (eng (conn w)) = log e ++ [SBegin; SRollback] /\
    count_foo (eng (conn w)) = count_foo e.
Proof.
  destruct e as [t k p l bf cf rf]. unfold healthy. intros H Hp.
  simpl in H, Hp. subst p. destruct t, bf, cf, rf; try discriminate H.
  unfold implicit_rollback_ops. run_scenario.
  eexists. repeat split; unfold count_foo; simpl;
    first [ lia | rewrite <- !app_assoc; reflexivity ].
Qed.

Lemma implicit_rollback_discards_witness :
  exists w, run (implicit_rollback_ops 1) (init fresh_engine) = Some w /\
    count_foo (eng (conn w)) = 0.
Proof.
  destruct (implicit_rollback_discards fresh_engine 1 eq_refl eq_refl)
    as [w [Hr [_ [_ [_ [_ [_ Hc]]]]]]].
  exists w. split; [exact Hr | exact Hc].
Defined.

(** SQLTransactionTest.Rollback, whole body: after the implicitly rolled
    back transaction, a second handle on the same connection begins again,
    and its explicit Rollback discards its [m2] INSERTs too: the engine saw
    two BEGIN/ROLLBACK pairs and the row count is unchanged. *)
Theorem rollback_test_discards (e : engine) (m1 m2 : nat) :
  healthy e = true -> pending e = 0 ->
  (exists w1, run (implicit_rollback_ops m1 ++ [OBegin 1]) (init e) = Some w1 /\
              handles w1 1 = Open) /\
  exists w, run (rollback_test_ops m1 m2) (init e) = Some w /\
    handles w 1 = Closed /\ nesting_depth (conn w) = 0 /\
    log (eng (conn w)) = log e ++ [SBegin; SRollback; SBegin; SRollback] /\
    count_foo (eng (conn w)) = count_foo e.
Proof.
  destruct e as [t k p l bf cf rf]. unfold healthy. intros H Hp.
  simpl in H, Hp. subst p. destruct t, bf, cf, rf; try discriminate H.
  unfold rollback_test_ops, implicit_rollback_ops. run_scenario.
  split; [eexists; split; reflexivity|].
  eexists. repeat split; unfold count_foo; simpl;
    first [ lia | rewrite <- !app_assoc; reflexivity ].
Qed.

Lemma rollback_test_discards_witness :
  exists w, run (rollback_test_ops 1 1) (init fresh_engine) = Some w /\
    count_foo (eng (conn w)) = 0.
Proof.
  destruct (rollback_test_discards fresh_engine 1 1 eq_refl eq_refl)
    as [_ [w [Hr [_ [_ [_ Hc]]]]]].
  exists w. split; [exact Hr | exact Hc].
Defined.

(* ------------------------------------------------------------------ *)
(** * Open handles and the nesting depth *)

Lemma begin_depth (c : connection) (r : bool) (h : hstate) (c' : connection) :
  Begin Unopened c = Some (r, h, c') ->
  (h = Open /\ nesting_depth c' = S (nesting_depth c)) \/
  (h = Closed /\ nesting_depth c' = nesting_depth c).
Proof.
  destruct c as [d m e]. destruct e. intros HB. case_step;
    first [ left; split; [reflexivity | lia] | right; split; [reflexivity | lia] ].
Qed.

Lemma commit_depth (c : connection) (r : bool) (h : hstate) (c' : connection) :
  Commit Open c = Some (r, h, c') ->
  h = Closed /\ nesting_depth c' = nesting_depth c - 1.
Proof.
  destruct c as [d m e]. destruct e. intros HC. case_step; split; auto; lia.
Qed.

Lemma rollback_depth (c : connection) (h : hstate) (c' : connection) :
  Rollback Open c = Some (h, c') ->
  h = Closed /\ nesting_depth c' = nesting_depth c - 1.
Proof.
  destruct c as [d m e]. destruct e. intros HR. case_step; split; auto; lia.
Qed.

Lemma open_count_upd_above (hs : nat -> hstate) (N n : nat) (h : hstate) :
  N <= n -> open_count (upd hs n h) N = open_count hs N.
Proof.
  induction N as [|N IH]; intros Hn; [reflexivity|]. simpl.
  rewrite IH by lia. unfold upd.
  destruct (N =? n) eqn:E; [apply Nat.eqb_eq in E; lia | reflexivity].
Qed.

Lemma open_count_upd (hs : nat -> hstate) (N n : nat) (h : hstate) :
  n < N ->
  open_count (upd hs n h) N + (if is_open (hs n) then 1 else 0) =
  open_count hs N + (if is_open h then 1 else 0).
Proof.
  induction N as [|N IH]; intros Hn; [lia|]. simpl.
  destruct (Nat.eq_dec N n) as [->|Hne].
  - rewrite open_count_upd_above by lia. unfold upd. rewrite Nat.eqb_refl. lia.
  - assert (Hlt : n < N) by lia. specialize (IH Hlt).
    unfold upd at 2. apply Nat.eqb_neq in Hne. rewrite Hne. lia.
Qed.

Lemma open_count_pos (hs : nat -> hstate) (N n : nat) :
  n < N -> hs n = Open -> open_count hs N >= 1.
Proof.
  induction N as [|N IH]; intros Hn Ho; [lia|]. simpl.
  destruct (Nat.eq_dec N n) as [->|Hne]; [rewrite Ho; simpl; lia|].
  assert (n < N) by lia. specialize (IH H Ho). lia.
Qed.

Lemma step_depth_inv (N : nat) (o : op) (w w' : world) :
  op_bound N o = true -> depth_inv N w -> step o w = Some w' -> depth_inv N w'.
Proof.
  unfold depth_inv. intros Hb Hi Hs.
  destruct o as [n|n|n|n|]; simpl in Hb;
    try (apply Nat.ltb_lt in Hb; pose proof (open_count_upd (handles w) N n) as U);
    simpl in Hs.
  - destruct (handles w n) eqn:Hn; try discriminate Hs.
    destruct (Begin Unopened (conn w)) as [[[r h] c]|] eqn:HB; inversion Hs; subst; simpl.
    specialize (U h Hb). try rewrite Hn in U. simpl in U.
    destruct (begin_depth _ _ _ _ HB) as [[-> Hd]|[-> Hd]]; simpl in U; lia.
  - destruct (handles w n) eqn:Hn; try discriminate Hs.
    pose proof (open_count_pos (handles w) N n Hb Hn).
    destruct (Commit Open (conn w)) as [[[r h] c]|] eqn:HC; inversion Hs; subst; simpl.
    specialize (U h Hb). try rewrite Hn in U. simpl in U.
    destruct (commit_depth _ _ _ _ HC) as [-> Hd]. simpl in U. lia.
  - destruct (handles w n) eqn:Hn; try discriminate Hs.
    pose proof (open_count_pos (handles w) N n Hb Hn).
    destruct (Rollback Open (conn w)) as [[h c]|] eqn:HR; inversion Hs; subst; simpl.
    specialize (U h Hb). try rewrite Hn in U. simpl in U.
    destruct (rollback_depth _ _ _ HR) as [-> Hd]. simpl in U. lia.
  - destruct (handles w n) eqn:Hn.
    + unfold destroy in Hs. simpl in Hs. inversion Hs; subst; simpl.
      specialize (U Unopened Hb). try rewrite Hn in U. simpl in U. lia.
    + pose proof (open_count_pos (handles w) N n Hb Hn).
      unfold destroy in Hs. cbn [is_open] in Hs.
      destruct (Rollback Open (conn w)) as [[h c]|] eqn:HR.
      * inversion Hs; subst; simpl.
        specialize (U h Hb). try rewrite Hn in U. simpl in U.
        destruct (rollback_depth _ _ _ HR) as [-> Hd]. simpl in U. lia.
      * inversion Hs; subst; simpl.
        specialize (U Open Hb). try rewrite Hn in U. simpl in U. lia.
    + unfold destroy in Hs. simpl in Hs. inversion Hs; subst; simpl.
      specialize (U Closed Hb). try rewrite Hn in U. simpl in U. lia.
  - inversion Hs; subst. simpl. exact Hi.
Qed.

(** Every call sequence from a connection with no transaction open, over
    handles [0 .. N-1] fresh at the start, keeps the connection's nesting
    counter equal to the number of open handles. *)
Theorem open_handles_equal_depth (N : nat) (e : engine) (os : list op) (w : world) :
  forallb (op_bound N) os = true -> run os (init e) = Some w ->
  open_count (handles w) N = nesting_depth (conn w).
Proof.
  change (open_count (handles w) N = nesting_depth (conn w)) with (depth_inv N w).
  assert (H0 : depth_inv N (init e)).
  { unfold depth_inv. simpl. clear. induction N; simpl; lia. }
  revert H0. generalize (init e) as w0. revert w.
  induction os as [|o os IH]; intros w w0 H0 Hb Hr; simpl in *.
  - inversion Hr; subst. exact H0.
  - apply andb_true_iff in Hb as [Ho Hb].
    destruct (step o w0) as [w1|] eqn:Hs; [|discriminate].
    exact (IH w w1 (step_depth_inv N o w0 w1 Ho H0 Hs) Hb Hr).
Qed.

Lemma open_handles_equal_depth_witness :
  open_count (handles (world_or_init (run_prefix 7 fresh_engine))) 4 = 2.
Proof.
  rewrite (open_handles_equal_depth 4 fresh_engine (firstn 7 nested_rollback_ops)
             (world_or_init (run_prefix 7 fresh_engine)) eq_refl
             ltac:(vm_compute; reflexivity)).
  vm_compute. reflexivity.
Defined.

(* ------------------------------------------------------------------ *)
(** * The engine's view of the nesting *)

Lemma log_open_app (l1 l2 : list stmt) (o : bool) :
  log_open (l1 ++ l2) o =
  match log_open l1 o with Some o' => log_open l2 o' | None => None end.
Proof.
  revert o. induction l1 as [|s l1 IH]; intros o; simpl; [reflexivity|].
  destruct s, o; simpl; auto.
Qed.

Lemma step_reliable (o : op) (w w' : world) :
  step o w = Some w' -> reliable (eng (conn w')) = reliable (eng (conn w)).
Proof.
  destruct w as [[d m e] hs]. destruct e. destruct o; intros Hs; case_step; reflexivity.
Qed.

Lemma step_eng_inv (N : nat) (o : op) (w w' : world) :
  reliable (eng (conn w)) = true -> op_bound N o = true ->
  depth_inv N w -> eng_inv w -> step o w = Some w' -> eng_inv w'.
Proof.
  intros Hr Hb Hi [Ht Hl] Hs.
  assert (Hd1 : forall n, n < N -> handles w n = Open -> nesting_depth (conn w) >= 1).
  { intros n Hn Ho. unfold depth_inv in Hi. rewrite <- Hi.
    exact (open_count_pos _ _ _ Hn Ho). }
  unfold eng_inv.
  destruct w as [[d m e] hs]. destruct e as [t k p l bf cf rf].
  unfold reliable in Hr. simpl in *. subst t.
  destruct bf, cf, rf; try discriminate Hr.
  destruct o as [n|n|n|n|]; simpl in Hb; try apply Nat.ltb_lt in Hb;
    try specialize (Hd1 n Hb); case_step;
    rewrite ?log_open_app, ?Hl; simpl;
    try (specialize (Hd1 eq_refl)); destruct d as [|[|d]]; simpl in *;
    try lia; try discriminate; auto.
Qed.

Lemma run_reach (N : nat) (os : list op) (w0 w : world) :
  reliable (eng (conn w0)) = true -> depth_inv N w0 -> eng_inv w0 -> poison_inv w0 ->
  forallb (op_bound N) os = true -> run os w0 = Some w ->
  reliable (eng (conn w)) = true /\ depth_inv N w /\ eng_inv w /\ poison_inv w.
Proof.
  revert w0. induction os as [|o os IH]; intros w0 Hr Hd He Hp Hb Hrun; simpl in *.
  - inversion Hrun; subst. auto.
  - apply andb_true_iff in Hb as [Ho Hb].
    destruct (step o w0) as [w1|] eqn:Hs; [|discriminate].
    apply (IH w1); auto.
    + rewrite (step_reliable o w0 w1 Hs). exact Hr.
    + exact (step_depth_inv N o w0 w1 Ho Hd Hs).
    + exact (step_eng_inv N o w0 w1 Hr Ho Hd He Hs).
    + exact (step_poison_inv o w0 w1 Hp Hs).
Qed.

Lemma init_reach (N : nat) (e : engine) :
  in_txn e = false -> log_open (log e) false = Some false ->
  depth_inv N (init e) /\ eng_inv (init e) /\ poison_inv (init e).
Proof.
  intros Ht Hl. unfold depth_inv, eng_inv, poison_inv. simpl.
  split; [clear; induction N; simpl; lia|]. auto.
Qed.

(** For an engine that rejects no statement, every call sequence from a
    connection with no transaction open (over handles [0 .. N-1]) keeps the
    engine inside a transaction exactly while the depth is positive, and the
    engine's log stays a sequence of BEGIN, COMMIT-or-ROLLBACK pairs, ending
    with an unmatched BEGIN exactly while the depth is positive: no nested
    BEGIN, no COMMIT or ROLLBACK outside a transaction. *)
Theorem engine_log_bracketed (N : nat) (e : engine) (os : list op) (w : world) :
  reliable e = true -> in_txn e = false -> log e = [] ->
  forallb (op_bound N) os = true -> run os (init e) = Some w ->
  in_txn (eng (conn w)) = (0 <? nesting_depth (conn w)) /\
  log_open (log (eng (conn w))) false = Some (0 <? nesting_depth (conn w)).
Proof.
  intros Hr Ht Hl Hb Hrun.
  destruct (init_reach N e Ht ltac:(rewrite Hl; reflexivity)) as [Hd [He Hp]].
  destruct (run_reach N os (init e) w Hr Hd He Hp Hb Hrun) as [_ [_ [Hw _]]].
  exact Hw.
Qed.

Lemma engine_log_bracketed_witness :
  log_open (log (eng (conn (world_or_init (run_prefix 7 fresh_engine))))) false =
  Some true.
Proof.
  destruct (engine_log_bracketed 4 fresh_engine (firstn 7 nested_rollback_ops)
              (world_or_init (run_prefix 7 fresh_engine)) eq_refl eq_refl eq_refl
              eq_refl ltac:(vm_compute; reflexivity)) as [_ H].
  rewrite H. vm_compute. reflexivity.
Defined.

(** Inner commits are not durable, and a poisoned outer transaction adds no
    durable row: for an engine that rejects no statement, in every state
    reached from a connection with no transaction open, a call that starts
    and ends with a transaction open leaves the committed row count as it is,
    and so does every call made while the must-rollback flag is set,
    including the one that closes the outer transaction. *)
Theorem inner_work_not_durable (N : nat) (e : engine) (os : list op) (w : world)
    (o : op) (w' : world) :
  reliable e = true -> in_txn e = false -> log e = [] ->
  forallb (op_bound N) (os ++ [o]) = true ->
  run os (init e) = Some w -> step o w = Some w' ->
  (nesting_depth (conn w) > 0 -> nesting_depth (conn w') > 0 ->
     committed (eng (conn w')) = committed (eng (conn w))) /\
  (must_rollback (conn w) = true ->
     committed (eng (conn w')) = committed (eng (conn w))).
Proof.
  intros Hr Ht Hl Hb Hrun Hs.
  rewrite forallb_app in Hb. apply andb_true_iff in Hb as [Hb Ho].
  simpl in Ho. rewrite andb_true_r in Ho.
  destruct (init_reach N e Ht ltac:(rewrite Hl; reflexivity)) as [Hd0 [He0 Hp0]].
  destruct (run_reach N os (init e) w Hr Hd0 He0 Hp0 Hb Hrun)
    as [Hrw [Hdw [[Htw _] Hpw]]].
  unfold poison_inv in Hpw.
  destruct w as [[d m e1] hs]. destruct e1 as [t k p l bf cf rf].
  unfold reliable in Hrw. simpl in *. subst t.
  destruct bf, cf, rf; try discriminate Hrw.
  split.
  - intros Hd Hd'. destruct d as [|d]; [lia|]. simpl in *.
    destruct o; case_step; lia.
  - intros ->. destruct d as [|d]; [specialize (Hpw eq_refl); discriminate|].
    simpl in *. destruct o; case_step; lia.
Qed.

Lemma inner_work_not_durable_witness :
  committed (eng (conn (world_or_init (run_prefix 8 fresh_engine)))) =
  committed (eng (conn (world_or_init (run_prefix 7 fresh_engine)))).
Proof.
  destruct (inner_work_not_durable 4 fresh_engine (firstn 7 nested_rollback_ops)
              (world_or_init (run_prefix 7 fresh_engine)) (ORollback 2)
              (world_or_init (run_prefix 8 fresh_engine))
              eq_refl eq_refl eq_refl eq_refl
              ltac:(vm_compute; reflexivity) ltac:(vm_compute; reflexivity))
    as [H _].
  apply H; vm_compute; lia.
Defined.

(** The connection is reusable: for an engine that rejects no statement,
    whenever a call sequence from a connection with no transaction open has
    brought the depth back to 0, Begin on a fresh handle succeeds, opens the
    handle, makes the depth 1 and issues one BEGIN. *)
Theorem begin_after_close_succeeds (N : nat) (e : engine) (os : list op) (w : world) :
  reliable e = true -> in_txn e = false -> log e = [] ->
  forallb (op_bound N) os = true -> run os (init e) = Some w ->
  nesting_depth (conn w) = 0 ->
  exists c', Begin Unopened (conn w) = Some (true, Open, c') /\
    nesting_depth c' = 1 /\ must_rollback c' = false /\
    log (eng c') = log (eng (conn w)) ++ [SBegin].
Proof.
  intros Hr Ht Hl Hb Hrun Hd.
  destruct (init_reach N e Ht ltac:(rewrite Hl; reflexivity)) as [Hd0 [He0 Hp0]].
  destruct (run_reach N os (init e) w Hr Hd0 He0 Hp0 Hb Hrun)
    as [Hrw [_ [[Htw _] Hpw]]].
  unfold poison_inv in Hpw. specialize (Hpw Hd).
  destruct w as [[d m e1] hs]. destruct e1 as [t k p l bf cf rf].
  unfold reliable in Hrw. simpl in *. subst d m t.
  destruct bf, cf, rf; try discriminate Hrw.
  eexists. repeat split.
Qed.

Lemma begin_after_close_succeeds_witness :
  exists c', Begin Unopened (conn (world_or_init (run_prefix 12 fresh_engine))) =
               Some (true, Open, c') /\ nesting_depth c' = 1.
Proof.
  destruct (begin_after_close_succeeds 4 fresh_engine nested_rollback_ops
              (world_or_init (run_prefix 12 fresh_engine)) eq_refl eq_refl eq_refl
              eq_refl ltac:(vm_compute; reflexivity) ltac:(vm_compute; reflexivity))
    as [c' [H1 [H2 _]]].
  exists c'. split; [exact H1 | exact H2].
Defined.
